(** * bindings/c/libjsonnet_test_file.c

    A shallow embedding of the C host program that drives the jsonnet
    engine through its C interface: the native callback [native_add] and
    the entry point [main].

    The engine itself (everything declared in [libjsonnet.h]) is not part
    of the file; it is taken as an interface, the class [Engine], and every
    statement about the host holds for all its implementations.  A small
    concrete engine, [TestDouble], is used to run the host on inputs.

    The engine calls the host back while it evaluates a file.  Such a call
    runs the host's function in the host's own state, and every call that
    function makes is part of the run. *)

From Stdlib Require Import ZArith String List Floats.
From stdpp Require Import base option list gmap strings pretty.

Local Open Scope string_scope.
Local Open Scope list_scope.
Local Open Scope Z_scope.

(** ** C data *)

(** [double]: IEEE 754 binary64; [a + b] in C is [PrimFloat.add]. *)
Abbreviation double := float.

(** Addresses returned by [malloc].  The null pointer is not an address. *)
Abbreviation addr := positive.

(** <stdlib.h> *)
Definition EXIT_SUCCESS : Z := 0.
Definition EXIT_FAILURE : Z := 1.

(** The host functions whose address is handed to the engine. *)
Inductive native_fn : Type :=
  | fn_native_add.

(** The stale contents of the two stack slots that become the locals
    [double a; double b;] of a callback activation.  They are whatever the
    caller left there. *)
Abbreviation frame := (double * double)%type.

(** ** libjsonnet.h *)

(** The course of one call of [jsonnet_evaluate_file], as the host sees
    it.  The engine returns the output buffer and the error flag; or it
    never returns; or it calls one of the host's functions through the
    pointer it was given, from its state [e], and goes on from the handle
    and the success flag the function returned and from the state the
    function left the engine in. *)
Inductive course (val_t buf_t E : Type) : Type :=
  | Returns (output : buf_t) (error : Z) (e : E)
  | NoReturn
  | CallsBack (f : native_fn) (junk : frame) (nctx : addr) (argv : list val_t)
      (e : E) (k : val_t -> Z -> E -> course val_t buf_t E).

Arguments Returns {val_t buf_t E} output error e.
Arguments NoReturn {val_t buf_t E}.
Arguments CallsBack {val_t buf_t E} f junk nctx argv e k.

(** [vm_t] is [struct JsonnetVm*], [val_t] is [struct JsonnetJsonValue*],
    [buf_t] is the [char*] of a buffer owned by the engine's allocator, and
    [E] is the state of the engine.  A function with an out-parameter
    returns what it stores there.  [jsonnet_evaluate_file] always stores
    the error flag; [jsonnet_json_extract_number] may leave [*out] as it
    was, so it also takes the contents of [*out] before the call. *)
Class Engine : Type := {
  vm_t : Type;
  val_t : Type;
  buf_t : Type;
  E : Type;
  jsonnet_make : E -> vm_t * E;
  jsonnet_destroy : vm_t -> E -> E;
  jsonnet_realloc : vm_t -> buf_t -> Z -> E -> E;
  jsonnet_native_callback :
    vm_t -> string -> native_fn -> addr -> list (option string) -> E -> E;
  jsonnet_evaluate_file : vm_t -> string -> E -> course val_t buf_t E;
  (* int jsonnet_json_extract_number(vm, v, double *out): the status and
     the contents of [*out] afterwards *)
  jsonnet_json_extract_number : vm_t -> val_t -> double -> E -> Z * double;
  jsonnet_json_make_number : vm_t -> double -> E -> val_t * E;
  (* the NUL-terminated string a buffer holds *)
  cstr : E -> buf_t -> string
}.

(** ** The host *)

Section Host.
Context `{Engine}.

(** typedef struct native_ctx_t { vm_t vm } native_ctx_t; *)
Record native_ctx_t : Type := { vm : vm_t }.

(** Calls of the host to the engine and to the C library, in the order
    in which they happen.  A call is recorded when it returns, with what
    it returned.  [jsonnet_evaluate_file] is the one call during which the
    host is called back, and it is recorded when it is entered as well:
    the calls a callback makes stand between its two events. *)
Inductive event : Type :=
  | EvFprintfStderr (s : string)
  | EvPrintf (s : string)
  | EvMalloc (p : addr)
  | EvFree (p : addr)
  | EvMake (v : vm_t)
  | EvNativeCallback (v : vm_t) (name : string) (cb : native_fn)
      (ctx : addr) (params : list (option string))
  | EvEvaluateFileEnter (v : vm_t) (file : string)
  | EvEvaluateFile (v : vm_t) (file : string) (output : buf_t) (error : Z)
  | EvRealloc (v : vm_t) (buf : buf_t) (sz : Z)
  | EvDestroy (v : vm_t)
  | EvExtractNumber (v : vm_t) (x : val_t) (status : Z)
  | EvMakeNumber (v : vm_t) (x : double) (r : val_t).

(** The state a host function runs in.  A cell of [heap] is [None] from
    [malloc] until it is first written. *)
Record World : Type := {
  eng : E;
  heap : gmap addr (option native_ctx_t);
  out : string;
  err : string;
  trace : list event
}.

Definition set_eng (e : E) (w : World) : World :=
  {| eng := e; heap := heap w; out := out w; err := err w; trace := trace w |}.
Definition set_heap (h : gmap addr (option native_ctx_t)) (w : World) : World :=
  {| eng := eng w; heap := h; out := out w; err := err w; trace := trace w |}.
Definition set_out (s : string) (w : World) : World :=
  {| eng := eng w; heap := heap w; out := s; err := err w; trace := trace w |}.
Definition set_err (s : string) (w : World) : World :=
  {| eng := eng w; heap := heap w; out := out w; err := s; trace := trace w |}.
Definition emit (ev : event) (w : World) : World :=
  {| eng := eng w; heap := heap w; out := out w; err := err w;
     trace := trace w ++ [ev] |}.

(** State and undefined behaviour: [None] is a run that goes wrong, or
    that waits for an engine that never returns. *)
Definition M (A : Type) : Type := World -> option (A * World).

#[export] Instance M_ret : MRet M := fun A a w => Some (a, w).
#[export] Instance M_bind : MBind M := fun A B k m w =>
  match m w with
  | Some (a, w') => k a w'
  | None => None
  end.

(** *** <stdlib.h>, <stdio.h> *)

(** Memory is taken to be unbounded: [malloc] always returns a fresh
    address, never the null pointer.  [free] of an address that is not
    allocated is undefined. *)
Definition malloc : M addr := fun w =>
  let p := fresh (dom (heap w)) in
  Some (p, emit (EvMalloc p) (set_heap (<[p := None]> (heap w)) w)).

Definition free (p : addr) : M unit := fun w =>
  match heap w !! p with
  | Some _ => Some (tt, emit (EvFree p) (set_heap (delete p (heap w)) w))
  | None => None
  end.

Definition printf_s (s : string) : M unit := fun w =>
  Some (tt, emit (EvPrintf s) (set_out (out w +:+ s) w)).

Definition fprintf_stderr_s (s : string) : M unit := fun w =>
  Some (tt, emit (EvFprintfStderr s) (set_err (err w +:+ s) w)).

(** *** Memory accesses of the host *)

(** [p->vm = v] *)
Definition store_vm (p : addr) (v : vm_t) : M unit := fun w =>
  match heap w !! p with
  | Some _ => Some (tt, set_heap (<[p := Some {| vm := v |}]> (heap w)) w)
  | None => None
  end.

(** [p->vm] *)
Definition load_vm (p : addr) : M vm_t := fun w =>
  match heap w !! p with
  | Some (Some c) => Some (vm c, w)
  | _ => None
  end.

(** [argv[i]] *)
Definition index {A} (l : list A) (i : nat) : M A := fun w =>
  match l !! i with
  | Some x => Some (x, w)
  | None => None
  end.

(** The string at [buf], as [%s] reads it. *)
Definition read_cstr (buf : buf_t) : M string := fun w =>
  Some (cstr (eng w) buf, w).

(** *** Calls into the engine *)

Definition call_make : M vm_t := fun w =>
  let '(v, e) := jsonnet_make (eng w) in
  Some (v, emit (EvMake v) (set_eng e w)).

Definition call_destroy (v : vm_t) : M unit := fun w =>
  Some (tt, emit (EvDestroy v) (set_eng (jsonnet_destroy v (eng w)) w)).

Definition call_realloc (v : vm_t) (buf : buf_t) (sz : Z) : M unit := fun w =>
  Some (tt, emit (EvRealloc v buf sz) (set_eng (jsonnet_realloc v buf sz (eng w)) w)).

Definition call_native_callback (v : vm_t) (name : string) (cb : native_fn)
    (ctx : addr) (params : list (option string)) : M unit := fun w =>
  Some (tt, emit (EvNativeCallback v name cb ctx params)
              (set_eng (jsonnet_native_callback v name cb ctx params (eng w)) w)).

Definition call_extract_number (v : vm_t) (x : val_t) (cur : double) : M double :=
  fun w =>
    let '(status, d) := jsonnet_json_extract_number v x cur (eng w) in
    Some (d, emit (EvExtractNumber v x status) w).

Definition call_make_number (v : vm_t) (x : double) : M val_t := fun w =>
  let '(r, e) := jsonnet_json_make_number v x (eng w) in
  Some (r, emit (EvMakeNumber v x r) (set_eng e w)).

(** *** native_add (lines 13-21)

    The result is the returned handle together with [*success]. *)
Definition native_add (junk : frame) (nctx : addr) (argv : list val_t)
    : M (val_t * Z) :=
  let ctx := nctx in
  let a := fst junk in
  let b := snd junk in
  v ← load_vm ctx;
  argv0 ← index argv 0;
  a ← call_extract_number v argv0 a;
  v ← load_vm ctx;
  argv1 ← index argv 1;
  b ← call_extract_number v argv1 b;
  let success := 1 in
  v ← load_vm ctx;
  r ← call_make_number v (a + b)%float;
  mret (r, success).

(** *** Calls of the engine into the host *)

(** A call through one of the host's function pointers. *)
Definition call_native (f : native_fn) (junk : frame) (nctx : addr)
    (argv : list val_t) : M (val_t * Z) :=
  match f with
  | fn_native_add => native_add junk nctx argv
  end.

(** The host during one call of [jsonnet_evaluate_file].  Each callback
    runs in the host's state, with the engine in the state it called
    from; its events, and whatever it does to the host's memory and
    streams, stay.  A callback that goes wrong takes the run with it. *)
Fixpoint run_course (t : course val_t buf_t E) : M (buf_t * Z) :=
  match t with
  | Returns output error e => fun w => Some ((output, error), set_eng e w)
  | NoReturn => fun _ => None
  | CallsBack f junk nctx argv e k => fun w =>
      match call_native f junk nctx argv (set_eng e w) with
      | Some ((r, success), w') => run_course (k r success (eng w')) w'
      | None => None
      end
  end.

Definition call_evaluate_file (v : vm_t) (file : string) : M (buf_t * Z) :=
  fun w =>
    match run_course (jsonnet_evaluate_file v file (eng w))
            (emit (EvEvaluateFileEnter v file) w) with
    | Some ((output, error), w') =>
        Some ((output, error), emit (EvEvaluateFile v file output error) w')
    | None => None
    end.

(** *** main (lines 23-51) *)

Definition newline : string := String (Ascii.ascii_of_nat 10) EmptyString.
Definition usage : string := "libjsonnet_test_file <file>" +:+ newline.

Definition main (argc : Z) (argv : list string) : M Z :=
  if negb (Z.eqb argc 2) then
    fprintf_stderr_s usage ;;
    mret EXIT_FAILURE
  else
    v ← call_make;
    native_ctx ← malloc;
    store_vm native_ctx v ;;
    let params := [Some "a"; Some "b"; None] in
    call_native_callback v "nativeAdd" fn_native_add native_ctx params ;;
    file ← index argv 1;
    '(output, error) ← call_evaluate_file v file;
    if negb (Z.eqb error 0) then
      s ← read_cstr output;
      fprintf_stderr_s s ;;
      call_realloc v output 0 ;;
      call_destroy v ;;
      mret EXIT_FAILURE
    else
      s ← read_cstr output;
      printf_s s ;;
      call_realloc v output 0 ;;
      free native_ctx ;;
      call_destroy v ;;
      mret EXIT_SUCCESS.

End Host.

(** ** Vocabulary of the statements *)

Section Runs.
Context `{Engine}.

Definition is_free (ev : event) : bool :=
  match ev with EvFree _ => true | _ => false end.
Definition is_make (ev : event) : bool :=
  match ev with EvMake _ => true | _ => false end.
Definition is_destroy (ev : event) : bool :=
  match ev with EvDestroy _ => true | _ => false end.
Definition is_evaluate (ev : event) : bool :=
  match ev with EvEvaluateFile _ _ _ _ => true | _ => false end.
Definition is_release (ev : event) : bool :=
  match ev with EvRealloc _ _ sz => Z.eqb sz 0 | _ => false end.
Definition is_make_number (ev : event) : bool :=
  match ev with EvMakeNumber _ _ _ => true | _ => false end.
Definition is_callback_call (ev : event) : bool :=
  match ev with
  | EvExtractNumber _ _ _ | EvMakeNumber _ _ _ => true
  | _ => false
  end.
Definition is_engine_call (ev : event) : bool :=
  match ev with
  | EvFprintfStderr _ | EvPrintf _ | EvMalloc _ | EvFree _ => false
  | _ => true
  end.

Definition count (P : event -> bool) (evs : list event) : nat :=
  length (List.filter P evs).

(** Some event satisfying [P] comes earlier in [evs] than some event
    satisfying [Q]. *)
Fixpoint occurs_before (P Q : event -> bool) (evs : list event) : bool :=
  match evs with
  | [] => false
  | ev :: evs' => (P ev && existsb Q evs') || occurs_before P Q evs'
  end.

(** [evs] is the calls of some number of invocations of [native_add], one
    after the other: for each, two extractions and one construction. *)
Fixpoint callback_calls (evs : list event) : bool :=
  match evs with
  | [] => true
  | EvExtractNumber _ _ _ :: EvExtractNumber _ _ _ :: EvMakeNumber _ _ _ :: evs' =>
      callback_calls evs'
  | _ => false
  end.

(** A property of events that no call of a callback has. *)
Definition quiet (P : event -> bool) : Prop :=
  forall ev, is_callback_call ev = true -> P ev = false.


(** The handle [x] carries the number [d]: the accessor reports success
    and stores [d], whatever was in its out-parameter. *)
Definition carries (e : E) (v : vm_t) (x : val_t) (d : double) : Prop :=
  forall cur, jsonnet_json_extract_number v x cur e = (1, d).

(** The engine's contract for [jsonnet_json_make_number]: the handle it
    returns carries the number it was made from. *)
Definition make_number_carries : Prop :=
  forall v d e,
    carries (snd (jsonnet_json_make_number v d e)) v
            (fst (jsonnet_json_make_number v d e)) d.

(** A second clause of that contract: making a number does not change
    what the handles that exist already carry. *)
Definition make_number_preserves : Prop :=
  forall v d e v' x d',
    carries e v' x d' ->
    carries (snd (jsonnet_json_make_number v d e)) v' x d'.

(** The machine handle and the context record of the run of [main] that
    starts in [w], and the world in which the evaluation starts. *)
Definition the_vm (w : World) : vm_t := fst (jsonnet_make (eng w)).
Definition the_ctx (w : World) : addr := fresh (dom (heap w)).

Definition setup_events (w : World) : list event :=
  [EvMake (the_vm w); EvMalloc (the_ctx w);
   EvNativeCallback (the_vm w) "nativeAdd" fn_native_add (the_ctx w)
     [Some "a"; Some "b"; None]].

Definition before_eval (w : World) : World :=
  {| eng := jsonnet_native_callback (the_vm w) "nativeAdd" fn_native_add
              (the_ctx w) [Some "a"; Some "b"; None] (snd (jsonnet_make (eng w)));
     heap := <[the_ctx w := Some {| vm := the_vm w |}]> (heap w);
     out := out w;
     err := err w;
     trace := trace w ++ setup_events w |}.

(** What the call of [jsonnet_evaluate_file] on [file] returns in that
    run, callbacks included, and the state it leaves the engine in. *)
Definition evaluation (w : World) (file : string) : option (buf_t * Z * E) :=
  match call_evaluate_file (the_vm w) file (before_eval w) with
  | Some ((output, error), w3) => Some (output, error, eng w3)
  | None => None
  end.

(** The events of that call: its entry, the calls of the callbacks, its
    return. *)
Definition evaluation_events (w : World) (file : string) (output : buf_t)
    (error : Z) (cbs : list event) : list event :=
  [EvEvaluateFileEnter (the_vm w) file] ++ cbs
  ++ [EvEvaluateFile (the_vm w) file output error].

(** The worlds the three ways through [main] end in. *)
Definition usage_world (w : World) : World :=
  {| eng := eng w; heap := heap w; out := out w;
     err := err w +:+ usage;
     trace := trace w ++ [EvFprintfStderr usage] |}.

Definition success_world (w : World) (file : string) (output : buf_t) (e3 : E)
    (cbs : list event) : World :=
  {| eng := jsonnet_destroy (the_vm w) (jsonnet_realloc (the_vm w) output 0 e3);
     heap := heap w;
     out := out w +:+ cstr e3 output;
     err := err w;
     trace := trace w ++ setup_events w
              ++ evaluation_events w file output 0 cbs
              ++ [EvPrintf (cstr e3 output);
                  EvRealloc (the_vm w) output 0;
                  EvFree (the_ctx w);
                  EvDestroy (the_vm w)] |}.

Definition failure_world (w : World) (file : string) (output : buf_t)
    (error : Z) (e3 : E) (cbs : list event) : World :=
  {| eng := jsonnet_destroy (the_vm w) (jsonnet_realloc (the_vm w) output 0 e3);
     heap := <[the_ctx w := Some {| vm := the_vm w |}]> (heap w);
     out := out w;
     err := err w +:+ cstr e3 output;
     trace := trace w ++ setup_events w
              ++ evaluation_events w file output error cbs
              ++ [EvFprintfStderr (cstr e3 output);
                  EvRealloc (the_vm w) output 0;
                  EvDestroy (the_vm w)] |}.

(** Writes to the two streams. *)
Definition is_print (ev : event) : bool :=
  match ev with EvPrintf _ | EvFprintfStderr _ => true | _ => false end.

(** The run of [main] that starts in [w] gets an answer to everything it
    asks of its environment: it does not reach the engine, or [argv[1]]
    exists and the evaluation of that file returns. *)
Definition completes (argc : Z) (argv : list string) (w : World) : Prop :=
  argc ≠ 2
  \/ exists file output error e3,
       argv !! 1%nat = Some file
       /\ evaluation w file = Some (output, error, e3).

End Runs.

(** ** A test double for the engine

    Handles are indices into the tables of the engine's state.  The
    double knows two programs by the name of their file; every other file
    cannot be read. *)

Module TestDouble.

Inductive json : Type :=
  | JNull
  | JNum (x : double)
  | JStr (s : string).

Record state : Type := {
  vms : list bool;                        (* one entry per machine made: still live? *)
  natives : list (string * (native_fn * addr));
  values : list json;
  buffers : list (option string);         (* [None] once released *)
  made : nat;                             (* calls of make *)
  destroyed : nat;                        (* calls of destroy *)
  released : nat                          (* calls of realloc with size 0 *)
}.

Definition init : state :=
  {| vms := []; natives := []; values := []; buffers := [];
     made := 0; destroyed := 0; released := 0 |}.

Definition make (st : state) : nat * state :=
  (length (vms st),
   {| vms := vms st ++ [true]; natives := natives st; values := values st;
      buffers := buffers st; made := S (made st); destroyed := destroyed st;
      released := released st |}).

Definition destroy (v : nat) (st : state) : state :=
  {| vms := <[v := false]> (vms st); natives := natives st; values := values st;
     buffers := buffers st; made := made st; destroyed := S (destroyed st);
     released := released st |}.

Definition realloc (v buf : nat) (sz : Z) (st : state) : state :=
  if Z.eqb sz 0 then
    {| vms := vms st; natives := natives st; values := values st;
       buffers := <[buf := None]> (buffers st); made := made st;
       destroyed := destroyed st; released := S (released st) |}
  else st.

Definition native_callback (v : nat) (name : string) (fn : native_fn)
    (ctx : addr) (params : list (option string)) (st : state) : state :=
  {| vms := vms st; natives := (name, (fn, ctx)) :: natives st; values := values st;
     buffers := buffers st; made := made st; destroyed := destroyed st;
     released := released st |}.

Definition push_values (js : list json) (st : state) : state :=
  {| vms := vms st; natives := natives st; values := values st ++ js;
     buffers := buffers st; made := made st; destroyed := destroyed st;
     released := released st |}.

Definition extract_number (v x : nat) (cur : double) (st : state) : Z * double :=
  match values st !! x with
  | Some (JNum d) => (1, d)
  | _ => (0, cur)
  end.

Definition make_number (v : nat) (d : double) (st : state) : nat * state :=
  (length (values st), push_values [JNum d] st).

Definition new_buffer (s : string) (st : state) : nat * state :=
  (length (buffers st),
   {| vms := vms st; natives := natives st; values := values st;
      buffers := buffers st ++ [Some s]; made := made st;
      destroyed := destroyed st; released := released st |}).

Definition buffer_string (st : state) (buf : nat) : string :=
  match buffers st !! buf with
  | Some (Some s) => s
  | _ => ""
  end.

Fixpoint lookup_native (name : string) (l : list (string * (native_fn * addr)))
    : option (native_fn * addr) :=
  match l with
  | [] => None
  | (n, r) :: l' => if String.eqb n name then Some r else lookup_native name l'
  end.

(** Numbers print as jsonnet prints them when they are small naturals. *)
Fixpoint float_of_nat (n : nat) : double :=
  match n with
  | O => 0%float
  | S n' => (float_of_nat n' + 1)%float
  end.

Definition render (j : json) : string :=
  match j with
  | JNull => "null"
  | JStr s => s
  | JNum x =>
      match List.find (fun n => PrimFloat.eqb x (float_of_nat n)) (seq 0 100) with
      | Some n => pretty n
      | None => "<number>"
      end
  end.

(** What callbacks find in their uninitialised locals. *)
Definition junk : frame := (7, 11)%float.

(** add.jsonnet:   std.native("nativeAdd")(2, 3)
    mixed.jsonnet: std.native("nativeAdd")("x", 3) *)
Definition script (path : string) : option (list json) :=
  if String.eqb path "add.jsonnet" then Some [JNum 2; JNum 3]
  else if String.eqb path "mixed.jsonnet" then Some [JStr "x"; JNum 3]
  else None.

Definition evaluate_file (v : nat) (path : string) (st : state)
    : course nat nat state :=
  match script path with
  | None =>
      let '(b, st') := new_buffer ("cannot read " +:+ path +:+ newline) st in
      Returns b 1 st'
  | Some args =>
      match lookup_native "nativeAdd" (natives st) with
      | None =>
          let '(b, st') := new_buffer ("no such native" +:+ newline) st in
          Returns b 1 st'
      | Some (fn, ctx) =>
          let hs := seq (length (values st)) (length args) in
          CallsBack fn junk ctx hs (push_values args st) (fun r ok st2 =>
            if Z.eqb ok 0 then
              let '(b, st') := new_buffer ("native call failed" +:+ newline) st2 in
              Returns b 1 st'
            else
              match values st2 !! r with
              | Some j =>
                  let '(b, st') := new_buffer (render j +:+ newline) st2 in
                  Returns b 0 st'
              | None => NoReturn
              end)
      end
  end.

#[export] Instance engine : Engine := {|
  vm_t := nat;
  val_t := nat;
  buf_t := nat;
  E := state;
  jsonnet_make := make;
  jsonnet_destroy := destroy;
  jsonnet_realloc := realloc;
  jsonnet_native_callback := native_callback;
  jsonnet_evaluate_file := evaluate_file;
  jsonnet_json_extract_number := extract_number;
  jsonnet_json_make_number := make_number;
  cstr := buffer_string
|}.

Definition world0 : World :=
  {| eng := init; heap := ∅; out := ""; err := ""; trace := [] |}.

(** The process started with the command line [args] (program name
    first). *)
Definition run (args : list string) : option (Z * World) :=
  main (Z.of_nat (length args)) args world0.

(** The handles of a run that starts in [world0]. *)
Definition vm0 : vm_t := 0%nat.
Definition ctx0 : addr := 1%positive.
Definition buf0 : buf_t := 0%nat.
Definition val0 : val_t := 0%nat.
Definition val1 : val_t := 1%nat.
Definition val2 : val_t := 2%nat.
Definition val3 : val_t := 3%nat.

Definition add_args : list string := ["libjsonnet_test_file"; "add.jsonnet"].
Definition mixed_args : list string := ["libjsonnet_test_file"; "mixed.jsonnet"].
Definition missing_args : list string := ["libjsonnet_test_file"; "nope.jsonnet"].

(** The engine when the evaluation starts, and when it has ended, for
    each of the three files. *)
Definition registered : state :=
  {| vms := [true]; natives := [("nativeAdd", (fn_native_add, 1%positive))];
     values := []; buffers := []; made := 1; destroyed := 0; released := 0 |}.

Definition after_add : state :=
  {| vms := [true]; natives := [("nativeAdd", (fn_native_add, 1%positive))];
     values := [JNum 2; JNum 3; JNum 5];
     buffers := [Some ("5" +:+ newline)];
     made := 1; destroyed := 0; released := 0 |}.


Definition after_missing : state :=
  {| vms := [true]; natives := [("nativeAdd", (fn_native_add, 1%positive))];
     values := [];
     buffers := [Some ("cannot read nope.jsonnet" +:+ newline)];
     made := 1; destroyed := 0; released := 0 |}.

(** The world in which the engine calls the callback on the handles 0
    and 1, which hold [js]. *)
Definition calling (js : list json) : World :=
  set_eng (push_values js registered) (before_eval world0).

End TestDouble.


(** * Properties *)

Section HostFacts.
Context `{Engine}.

(** Brings a world built by the setters to its record form. *)
Ltac world_norm :=
  unfold emit, set_eng, set_heap, set_out, set_err;
  cbn [eng heap out err trace fst snd];
  rewrite <- ?app_assoc;
  cbn [app].

Lemma the_ctx_fresh (w : World) : heap w !! the_ctx w = None.
Proof. apply not_elem_of_dom, is_fresh. Qed.

(** The first four statements of [main] after the check of [argc]. *)
Lemma setup_spec {A} (k : vm_t -> addr -> M A) (w : World) :
  (v ← call_make;
   native_ctx ← malloc;
   store_vm native_ctx v;;
   call_native_callback v "nativeAdd" fn_native_add native_ctx
     [Some "a"; Some "b"; None];;
   k v native_ctx) w
  = k (the_vm w) (the_ctx w) (before_eval w).
Proof.
  unfold mbind, M_bind, call_make, malloc, store_vm, call_native_callback,
    before_eval, setup_events, the_vm, the_ctx.
  destruct (jsonnet_make (eng w)) as [v e1] eqn:Hmake.
  cbn [eng heap out err trace set_eng set_heap emit fst snd].
  rewrite lookup_insert_eq.
  cbn [eng heap out err trace set_eng set_heap emit fst snd].
  rewrite insert_insert_eq.
  f_equal. world_norm. reflexivity.
Qed.

(** ** native_add *)

Lemma native_add_run (junk : frame) (nctx : addr) (argv : list val_t)
    (w : World) (c : native_ctx_t) (va vb : val_t) :
  heap w !! nctx = Some (Some c) ->
  argv !! 0%nat = Some va ->
  argv !! 1%nat = Some vb ->
  native_add junk nctx argv w =
    let ra := jsonnet_json_extract_number (vm c) va (fst junk) (eng w) in
    let rb := jsonnet_json_extract_number (vm c) vb (snd junk) (eng w) in
    let m := jsonnet_json_make_number (vm c) (snd ra + snd rb)%float (eng w) in
    Some ((fst m, 1),
          {| eng := snd m; heap := heap w; out := out w; err := err w;
             trace := trace w ++
               [EvExtractNumber (vm c) va (fst ra);
                EvExtractNumber (vm c) vb (fst rb);
                EvMakeNumber (vm c) (snd ra + snd rb)%float (fst m)] |}).
Proof.
  intros Hctx Ha Hb.
  unfold native_add, mbind, M_bind, load_vm, index, call_extract_number,
    call_make_number, mret, M_ret.
  rewrite Hctx, Ha. world_norm.
  destruct (jsonnet_json_extract_number (vm c) va (fst junk) (eng w))
    as [sa a].
  world_norm. rewrite Hctx, Hb. world_norm.
  destruct (jsonnet_json_extract_number (vm c) vb (snd junk) (eng w))
    as [sb b].
  world_norm. rewrite Hctx. world_norm.
  destruct (jsonnet_json_make_number (vm c) (a + b)%float (eng w))
    as [r e'].
  world_norm. reflexivity.
Qed.

(** C1. Called on two handles that carry the numbers [a] and [b],
    [native_add] returns the handle that [jsonnet_json_make_number] makes
    for [a + b], and sets the success flag to 1; by the engine's contract
    for made numbers, the number extracted from that handle is [a + b]. *)
Theorem native_add_returns_sum (junk : frame) (nctx : addr) (w : World)
    (c : native_ctx_t) (va vb : val_t) (a b : double) :
  make_number_carries ->
  heap w !! nctx = Some (Some c) ->
  carries (eng w) (vm c) va a ->
  carries (eng w) (vm c) vb b ->
  exists r w',
    native_add junk nctx [va; vb] w = Some ((r, 1), w')
    /\ jsonnet_json_make_number (vm c) (a + b)%float (eng w) = (r, eng w')
    /\ carries (eng w') (vm c) r (a + b)%float.
Proof.
  intros Hlaw Hctx Ha Hb.
  rewrite (native_add_run junk nctx [va; vb] w c va vb Hctx eq_refl eq_refl).
  rewrite (Ha (fst junk)), (Hb (snd junk)). cbn [fst snd].
  pose proof (Hlaw (vm c) (a + b)%float (eng w)) as Hr.
  destruct (jsonnet_json_make_number (vm c) (a + b)%float (eng w)) as [r e'].
  eexists _, _. split; [reflexivity|]. split; [reflexivity|]. exact Hr.
Qed.

(** C6. Whatever status the accessor reports for either argument, and
    whatever it leaves in the local it was given, [native_add] sets the
    success flag to 1 and returns the number made from the sum of the two
    locals. *)
Theorem native_add_ignores_status (junk : frame) (nctx : addr)
    (argv : list val_t) (w : World) (c : native_ctx_t) (va vb : val_t)
    (sa sb : Z) (a b : double) :
  heap w !! nctx = Some (Some c) ->
  argv !! 0%nat = Some va ->
  argv !! 1%nat = Some vb ->
  jsonnet_json_extract_number (vm c) va (fst junk) (eng w) = (sa, a) ->
  jsonnet_json_extract_number (vm c) vb (snd junk) (eng w) = (sb, b) ->
  exists r w',
    native_add junk nctx argv w = Some ((r, 1), w')
    /\ jsonnet_json_make_number (vm c) (a + b)%float (eng w) = (r, eng w').
Proof.
  intros Hctx H0 H1 Ha Hb.
  rewrite (native_add_run junk nctx argv w c va vb Hctx H0 H1).
  rewrite Ha, Hb. cbn [fst snd].
  destruct (jsonnet_json_make_number (vm c) (a + b)%float (eng w)) as [r e'].
  eexists _, _. split; reflexivity.
Qed.

(** C9. An invocation of [native_add] leaves the memory of the host and
    its output streams as they were, and changes the engine's state by
    one call of [jsonnet_json_make_number] and nothing else: its calls are
    two extractions and that one construction.  When making a number
    keeps what existing handles carry, the two arguments carry afterwards
    what they carried before. *)
Theorem native_add_frame (junk : frame) (nctx : addr) (argv : list val_t)
    (w : World) (c : native_ctx_t) (va vb : val_t) :
  heap w !! nctx = Some (Some c) ->
  argv !! 0%nat = Some va ->
  argv !! 1%nat = Some vb ->
  exists r w' x sa sb,
    native_add junk nctx argv w = Some ((r, 1), w')
    /\ heap w' = heap w /\ out w' = out w /\ err w' = err w
    /\ jsonnet_json_make_number (vm c) x (eng w) = (r, eng w')
    /\ trace w' = trace w ++
         [EvExtractNumber (vm c) va sa; EvExtractNumber (vm c) vb sb;
          EvMakeNumber (vm c) x r]
    /\ count is_make_number
         [EvExtractNumber (vm c) va sa; EvExtractNumber (vm c) vb sb;
          EvMakeNumber (vm c) x r] = 1%nat
    /\ (make_number_preserves ->
        forall v' y d, carries (eng w) v' y d -> carries (eng w') v' y d).
Proof.
  intros Hctx H0 H1.
  rewrite (native_add_run junk nctx argv w c va vb Hctx H0 H1).
  destruct (jsonnet_json_extract_number (vm c) va (fst junk) (eng w)) as [sa a].
  destruct (jsonnet_json_extract_number (vm c) vb (snd junk) (eng w)) as [sb b].
  cbn [fst snd].
  destruct (jsonnet_json_make_number (vm c) (a + b)%float (eng w))
    as [r e'] eqn:Hm.
  exists r. eexists. exists (a + b)%float, sa, sb.
  cbn [fst snd eng heap out err trace].
  repeat split; try reflexivity; [exact Hm|].
  intros Hkeep v' y d Hy.
  pose proof (Hkeep (vm c) (a + b)%float (eng w) v' y d Hy) as Hy'.
  rewrite Hm in Hy'. exact Hy'.
Qed.

(** ** Lists of events *)

Lemma callback_calls_Forall (cbs : list event) :
  callback_calls cbs = true ->
  Forall (fun ev => is_callback_call ev = true) cbs.
Proof.
  remember (length cbs) as n eqn:Hn.
  revert cbs Hn. induction (lt_wf n) as [n _ IH]. intros cbs -> Hcbs.
  destruct cbs as [|a cbs]; [constructor|].
  destruct a; try discriminate.
  destruct cbs as [|b cbs]; [discriminate|].
  destruct b; try discriminate.
  destruct cbs as [|c cbs]; [discriminate|].
  destruct c; try discriminate.
  repeat (constructor; [reflexivity|]).
  apply (IH (length cbs)); [cbn; lia|reflexivity|exact Hcbs].
Qed.

Lemma filter_callbacks (P : event -> bool) (cbs l : list event) :
  quiet P -> callback_calls cbs = true ->
  List.filter P (cbs ++ l) = List.filter P l.
Proof.
  intros HP Hcbs. apply callback_calls_Forall in Hcbs.
  induction Hcbs as [|ev evs Hev _ IH]; [reflexivity|].
  cbn. by rewrite (HP ev Hev).
Qed.

Lemma existsb_callbacks (P : event -> bool) (cbs l : list event) :
  quiet P -> callback_calls cbs = true ->
  existsb P (cbs ++ l) = existsb P l.
Proof.
  intros HP Hcbs. apply callback_calls_Forall in Hcbs.
  induction Hcbs as [|ev evs Hev _ IH]; [reflexivity|].
  cbn. by rewrite (HP ev Hev).
Qed.

Lemma occurs_before_callbacks (P Q : event -> bool) (cbs l : list event) :
  quiet P -> callback_calls cbs = true ->
  occurs_before P Q (cbs ++ l) = occurs_before P Q l.
Proof.
  intros HP Hcbs. apply callback_calls_Forall in Hcbs.
  induction Hcbs as [|ev evs Hev _ IH]; [reflexivity|].
  cbn. by rewrite (HP ev Hev).
Qed.

Lemma omap_callbacks {A} (f : event -> option A) (cbs l : list event) :
  (forall ev, is_callback_call ev = true -> f ev = None) ->
  callback_calls cbs = true ->
  omap f (cbs ++ l) = omap f l.
Proof.
  intros Hf Hcbs. apply callback_calls_Forall in Hcbs.
  induction Hcbs as [|ev evs Hev _ IH]; [reflexivity|].
  cbn. by rewrite (Hf ev Hev).
Qed.

Lemma obtained_quiet (ev : event) :
  is_callback_call ev = true ->
  match ev with EvEvaluateFile _ _ output _ => Some output | _ => None end
  = None.
Proof. by destruct ev. Qed.

Lemma returned_quiet (ev : event) :
  is_callback_call ev = true ->
  match ev with
  | EvRealloc _ buf sz => if Z.eqb sz 0 then Some buf else None
  | _ => None
  end = None.
Proof. by destruct ev. Qed.

Lemma quiet_free : quiet is_free. Proof. by intros []. Qed.
Lemma quiet_make : quiet is_make. Proof. by intros []. Qed.
Lemma quiet_destroy : quiet is_destroy. Proof. by intros []. Qed.
Lemma quiet_evaluate : quiet is_evaluate. Proof. by intros []. Qed.
Lemma quiet_release : quiet is_release. Proof. by intros []. Qed.

(** Takes the calls of the callbacks [cbs] out of a goal about the events
    of a run, and computes the rest. *)
Ltac events Hcbs :=
  cbn [setup_events evaluation_events app];
  rewrite <- ?app_assoc; cbn [app];
  unfold count; cbn;
  rewrite ?(omap_callbacks _ _ _ obtained_quiet Hcbs),
    ?(omap_callbacks _ _ _ returned_quiet Hcbs),
    ?(filter_callbacks _ _ _ quiet_free Hcbs),
    ?(filter_callbacks _ _ _ quiet_make Hcbs),
    ?(filter_callbacks _ _ _ quiet_destroy Hcbs),
    ?(filter_callbacks _ _ _ quiet_evaluate Hcbs),
    ?(filter_callbacks _ _ _ quiet_release Hcbs),
    ?(existsb_callbacks _ _ _ quiet_free Hcbs),
    ?(occurs_before_callbacks _ _ _ _ quiet_free Hcbs),
    ?(occurs_before_callbacks _ _ _ _ quiet_destroy Hcbs),
    ?(occurs_before_callbacks _ _ _ _ quiet_evaluate Hcbs),
    ?(occurs_before_callbacks _ _ _ _ quiet_release Hcbs);
  cbn.

(** ** The evaluation, callbacks included *)

(** An invocation of [native_add] that returns had a valid context and
    two arguments. *)
Lemma native_add_inv (junk : frame) (nctx : addr) (argv : list val_t)
    (w : World) (res : val_t * Z) (w' : World) :
  native_add junk nctx argv w = Some (res, w') ->
  exists c va vb,
    heap w !! nctx = Some (Some c)
    /\ argv !! 0%nat = Some va /\ argv !! 1%nat = Some vb.
Proof.
  unfold native_add, mbind, M_bind, load_vm, index, call_extract_number.
  destruct (heap w !! nctx) as [[c|]|] eqn:Hctx; [|discriminate..].
  destruct argv as [|va [|vb rest]]; [discriminate| |].
  - cbn [lookup list_lookup].
    destruct (jsonnet_json_extract_number (vm c) va junk.1 (eng w)) as [sa a].
    world_norm. by rewrite Hctx.
  - intros _. by exists c, va, vb.
Qed.

(** What an invocation that returns has done to the host: three events,
    and nothing to its memory and streams. *)
Lemma call_native_effects (f : native_fn) (junk : frame) (nctx : addr)
    (argv : list val_t) (w : World) (res : val_t * Z) (w' : World) :
  call_native f junk nctx argv w = Some (res, w') ->
  heap w' = heap w /\ out w' = out w /\ err w' = err w
  /\ exists x y z,
       trace w' = trace w ++ [x; y; z]
       /\ callback_calls [x; y; z] = true.
Proof.
  destruct f. cbn [call_native]. intros Hrun.
  destruct (native_add_inv junk nctx argv w res w' Hrun)
    as (c & va & vb & Hctx & Ha & Hb).
  rewrite (native_add_run junk nctx argv w c va vb Hctx Ha Hb) in Hrun.
  cbn zeta in Hrun. injection Hrun as _ <-.
  cbn [heap out err trace]. repeat split; try reflexivity.
  eexists _, _, _. by split.
Qed.

(** The callbacks of an evaluation leave the host's memory and streams
    alone; their events are calls of callbacks. *)
Lemma run_course_frame (t : course val_t buf_t E) :
  forall (w1 : World) (res : buf_t * Z) (w3 : World),
    run_course t w1 = Some (res, w3) ->
    heap w3 = heap w1 /\ out w3 = out w1 /\ err w3 = err w1
    /\ exists cbs, callback_calls cbs = true /\ trace w3 = trace w1 ++ cbs.
Proof.
  induction t as [output error e| |f junk nctx argv e k IH]; intros w1 res w3 Hrun.
  - cbn in Hrun. injection Hrun as _ <-.
    repeat split; try reflexivity.
    exists []. split; [reflexivity|]. cbn. by rewrite app_nil_r.
  - discriminate.
  - cbn [run_course] in Hrun.
    destruct (call_native f junk nctx argv (set_eng e w1))
      as [[[r success] w2]|] eqn:Hcall; [|discriminate].
    destruct (call_native_effects _ _ _ _ _ _ _ Hcall)
      as (Hh & Ho & He & x & y & z & Ht & Hxyz).
    destruct (IH r success (eng w2) w2 res w3 Hrun)
      as (Hh' & Ho' & He' & cbs & Hcbs & Ht').
    cbn [set_eng heap out err trace] in Hh, Ho, He, Ht.
    split; [congruence|]. split; [congruence|]. split; [congruence|].
    exists ([x; y; z] ++ cbs). split.
    + revert Hxyz. cbn. destruct x; try discriminate.
      destruct y; try discriminate. destruct z; try discriminate. done.
    + rewrite Ht', Ht. by rewrite <- app_assoc.
Qed.

(** The evaluation of a run of [main]. *)
Lemma evaluation_spec (w : World) (file : string) (output : buf_t)
    (error : Z) (e3 : E) :
  evaluation w file = Some (output, error, e3) ->
  exists cbs,
    callback_calls cbs = true
    /\ call_evaluate_file (the_vm w) file (before_eval w)
       = Some ((output, error),
               {| eng := e3;
                  heap := <[the_ctx w := Some {| vm := the_vm w |}]> (heap w);
                  out := out w;
                  err := err w;
                  trace := trace w ++ setup_events w
                           ++ evaluation_events w file output error cbs |}).
Proof.
  unfold evaluation, call_evaluate_file.
  destruct (run_course _ _) as [[[output' error'] w3]|] eqn:Hrun; [|discriminate].
  intros [= -> -> <-].
  destruct (run_course_frame _ _ _ _ Hrun) as (Hh & Ho & He & cbs & Hcbs & Ht).
  exists cbs. split; [exact Hcbs|].
  destruct w3 as [e3 h3 o3 r3 t3].
  cbn [emit before_eval eng heap out err trace] in *. subst.
  unfold evaluation_events, emit. cbn [eng heap out err trace].
  by rewrite <- !app_assoc.
Qed.

(** [main], path by path. *)
Lemma main_usage (argc : Z) (argv : list string) (w : World) :
  argc ≠ 2 -> main argc argv w = Some (EXIT_FAILURE, usage_world w).
Proof.
  intros Hargc. unfold main.
  destruct (Z.eqb_spec argc 2) as [->|_]; [done|].
  reflexivity.
Qed.

Lemma main_diverges (argv : list string) (file : string) (w : World) :
  argv !! 1%nat = Some file ->
  evaluation w file = None ->
  main 2 argv w = None.
Proof.
  intros Hfile Heval. unfold main. cbn [Z.eqb Pos.eqb negb].
  rewrite setup_spec.
  unfold mbind, M_bind, index.
  rewrite Hfile. unfold evaluation in Heval.
  by destruct (call_evaluate_file _ _ _) as [[[? ?] ?]|].
Qed.

Lemma main_failure_world (argv : list string) (file : string) (w : World)
    (output : buf_t) (error : Z) (e3 : E) :
  argv !! 1%nat = Some file ->
  evaluation w file = Some (output, error, e3) ->
  error ≠ 0 ->
  exists cbs,
    callback_calls cbs = true
    /\ main 2 argv w
       = Some (EXIT_FAILURE, failure_world w file output error e3 cbs).
Proof.
  intros Hfile Heval Herr.
  destruct (evaluation_spec w file output error e3 Heval) as (cbs & Hcbs & Hcall).
  exists cbs. split; [exact Hcbs|].
  unfold main. cbn [Z.eqb Pos.eqb negb].
  rewrite setup_spec.
  unfold mbind, M_bind, index.
  rewrite Hfile, Hcall.
  destruct (Z.eqb_spec error 0) as [?|_]; [done|].
  cbn [negb]. unfold read_cstr, fprintf_stderr_s, call_realloc, call_destroy, mret, M_ret.
  do 2 f_equal. unfold failure_world.
  world_norm. reflexivity.
Qed.

Lemma main_success_world (argv : list string) (file : string) (w : World)
    (output : buf_t) (e3 : E) :
  argv !! 1%nat = Some file ->
  evaluation w file = Some (output, 0, e3) ->
  exists cbs,
    callback_calls cbs = true
    /\ main 2 argv w = Some (EXIT_SUCCESS, success_world w file output e3 cbs).
Proof.
  intros Hfile Heval.
  destruct (evaluation_spec w file output 0 e3 Heval) as (cbs & Hcbs & Hcall).
  exists cbs. split; [exact Hcbs|].
  unfold main. cbn [Z.eqb Pos.eqb negb].
  rewrite setup_spec.
  unfold mbind, M_bind, index.
  rewrite Hfile, Hcall.
  cbn [Z.eqb negb].
  unfold read_cstr, printf_s, call_realloc, free, call_destroy, mret, M_ret.
  world_norm.
  rewrite lookup_insert_eq.
  do 2 f_equal. unfold success_world.
  world_norm. rewrite delete_insert_eq, delete_id by apply the_ctx_fresh.
  reflexivity.
Qed.

(** ** main *)

(** Every run of [main] that returns took one of the three paths. *)
Lemma main_cases (argc : Z) (argv : list string) (w : World) (code : Z)
    (w' : World) :
  main argc argv w = Some (code, w') ->
  (argc ≠ 2 /\ code = EXIT_FAILURE /\ w' = usage_world w)
  \/ (argc = 2 /\ exists file output error e3 cbs,
        argv !! 1%nat = Some file
        /\ evaluation w file = Some (output, error, e3)
        /\ callback_calls cbs = true
        /\ ((error = 0 /\ code = EXIT_SUCCESS
              /\ w' = success_world w file output e3 cbs)
            \/ (error ≠ 0 /\ code = EXIT_FAILURE
                /\ w' = failure_world w file output error e3 cbs))).
Proof.
  intros Hrun.
  destruct (Z.eq_dec argc 2) as [->|Hargc].
  - right. split; [reflexivity|].
    destruct (argv !! 1%nat) as [file|] eqn:Hfile.
    + destruct (evaluation w file) as [[[output error] e3]|] eqn:Heval.
      * destruct (Z.eq_dec error 0) as [->|Herr].
        -- destruct (main_success_world argv file w output e3 Hfile Heval)
             as (cbs & Hcbs & Hmain).
           rewrite Hmain in Hrun.
           exists file, output, 0, e3, cbs. repeat (split; [done|]).
           left. by simplify_eq.
        -- destruct (main_failure_world argv file w output error e3 Hfile Heval Herr)
             as (cbs & Hcbs & Hmain).
           rewrite Hmain in Hrun.
           exists file, output, error, e3, cbs. repeat (split; [done|]).
           right. by simplify_eq.
      * by rewrite (main_diverges argv file w Hfile Heval) in Hrun.
    + exfalso. revert Hrun. unfold main. cbn [Z.eqb Pos.eqb negb].
      rewrite setup_spec. unfold mbind, M_bind, index. by rewrite Hfile.
  - left. rewrite (main_usage argc argv w Hargc) in Hrun. by simplify_eq.
Qed.

(** A call of [free] happens only in runs that exit with success. *)
Lemma free_only_on_success (argc : Z) (argv : list string) (w : World)
    (code : Z) (w' : World) :
  main argc argv w = Some (code, w') ->
  exists evs, trace w' = trace w ++ evs
              /\ (existsb is_free evs = true -> code = EXIT_SUCCESS).
Proof.
  intros Hrun.
  destruct (main_cases argc argv w code w' Hrun)
    as [(_ & -> & ->)|(_ & file & output & error & e3 & cbs & _ & _ & Hcbs &
                       [(_ & -> & ->)|(_ & -> & ->)])].
  - eexists. split; [reflexivity|]. cbn. discriminate.
  - eexists. split; [reflexivity|]. reflexivity.
  - eexists. split; [reflexivity|]. events Hcbs. discriminate.
Qed.

(** C2. Started with one file argument, when the engine's evaluation of
    the file returns with the error flag 0, [main] returns [EXIT_SUCCESS];
    standard output has grown by exactly the string in the output buffer,
    standard error is as it was; between the entry and the return of the
    evaluation there are only the calls of the callbacks, and after it the
    host prints, hands the buffer back with [jsonnet_realloc] to size 0,
    frees the context record and destroys the machine handle, which
    leaves the host's memory as it was before the run. *)
Theorem main_success (argv : list string) (file : string) (w : World)
    (output : buf_t) (e3 : E) :
  argv !! 1%nat = Some file ->
  evaluation w file = Some (output, 0, e3) ->
  exists w' cbs,
    main 2 argv w = Some (0, w')
    /\ out w' = out w +:+ cstr e3 output
    /\ err w' = err w
    /\ callback_calls cbs = true
    /\ trace w' = trace (before_eval w) ++
         [EvEvaluateFileEnter (the_vm w) file] ++ cbs ++
         [EvEvaluateFile (the_vm w) file output 0;
          EvPrintf (cstr e3 output);
          EvRealloc (the_vm w) output 0;
          EvFree (the_ctx w);
          EvDestroy (the_vm w)]
    /\ eng w' = jsonnet_destroy (the_vm w)
                  (jsonnet_realloc (the_vm w) output 0 e3)
    /\ heap w' = heap w.
Proof.
  intros Hfile Heval.
  destruct (main_success_world argv file w output e3 Hfile Heval)
    as (cbs & Hcbs & Hmain).
  exists (success_world w file output e3 cbs), cbs.
  split; [exact Hmain|].
  unfold success_world, evaluation_events, before_eval. world_norm.
  by repeat split.
Qed.

(** C3. Started with one file argument, when the engine's evaluation of
    the file returns with a non-zero error flag, [main] returns
    [EXIT_FAILURE], which is not 0; standard error has grown by exactly
    the string in the output buffer, standard output is as it was; the
    file is evaluated once, with only the calls of the callbacks between
    the entry and the return of the evaluation, and after it the host
    reports, hands the buffer back with [jsonnet_realloc] to size 0 and
    destroys the machine handle. *)
Theorem main_failure (argv : list string) (file : string) (w : World)
    (output : buf_t) (error : Z) (e3 : E) :
  argv !! 1%nat = Some file ->
  evaluation w file = Some (output, error, e3) ->
  error ≠ 0 ->
  exists w' cbs,
    main 2 argv w = Some (EXIT_FAILURE, w')
    /\ EXIT_FAILURE ≠ 0
    /\ err w' = err w +:+ cstr e3 output
    /\ out w' = out w
    /\ callback_calls cbs = true
    /\ trace w' = trace (before_eval w) ++
         [EvEvaluateFileEnter (the_vm w) file] ++ cbs ++
         [EvEvaluateFile (the_vm w) file output error;
          EvFprintfStderr (cstr e3 output);
          EvRealloc (the_vm w) output 0;
          EvDestroy (the_vm w)]
    /\ count is_evaluate
         (setup_events w ++
          [EvEvaluateFileEnter (the_vm w) file] ++ cbs ++
          [EvEvaluateFile (the_vm w) file output error;
           EvFprintfStderr (cstr e3 output);
           EvRealloc (the_vm w) output 0;
           EvDestroy (the_vm w)]) = 1%nat
    /\ eng w' = jsonnet_destroy (the_vm w)
                  (jsonnet_realloc (the_vm w) output 0 e3).
Proof.
  intros Hfile Heval Herr.
  destruct (main_failure_world argv file w output error e3 Hfile Heval Herr)
    as (cbs & Hcbs & Hmain).
  exists (failure_world w file output error e3 cbs), cbs.
  split; [exact Hmain|].
  unfold failure_world, evaluation_events, before_eval. world_norm.
  repeat (split; [done|]). split; [|done].
  events Hcbs. reflexivity.
Qed.

(** C4. Started with an argument count other than 2 (the program name
    and one file), [main] returns [EXIT_FAILURE], which is not 0, having
    written the usage line to standard error and done nothing else: that
    write is its only event, and the engine, the host's memory and
    standard output are as they were. *)
Theorem main_wrong_argc (argc : Z) (argv : list string) (w : World) :
  argc ≠ 2 ->
  exists w',
    main argc argv w = Some (EXIT_FAILURE, w')
    /\ EXIT_FAILURE ≠ 0
    /\ err w' = err w +:+ usage
    /\ out w' = out w
    /\ trace w' = trace w ++ [EvFprintfStderr usage]
    /\ count is_engine_call [EvFprintfStderr usage] = 0%nat
    /\ eng w' = eng w
    /\ heap w' = heap w.
Proof.
  intros Hargc. exists (usage_world w).
  split; [exact (main_usage argc argv w Hargc)|].
  by repeat split.
Qed.

(** C5, as the code has it. With one file argument and an evaluation
    that returns: when the error flag is 0 the context record is freed
    once, and that [free] comes before the machine handle is destroyed,
    with no destroy before it and no evaluation after it; when the error
    flag is not 0 the context record is not freed at all. *)
Theorem ctx_freed_before_destroy (argv : list string) (file : string)
    (w : World) (output : buf_t) (error : Z) (e3 : E) :
  argv !! 1%nat = Some file ->
  evaluation w file = Some (output, error, e3) ->
  exists code w' evs,
    main 2 argv w = Some (code, w')
    /\ trace w' = trace w ++ evs
    /\ (error = 0 ->
        count is_free evs = 1%nat
        /\ occurs_before is_free is_destroy evs = true
        /\ occurs_before is_destroy is_free evs = false
        /\ occurs_before is_free is_evaluate evs = false)
    /\ (error ≠ 0 ->
        count is_free evs = 0%nat
        /\ occurs_before is_free is_destroy evs = false).
Proof.
  intros Hfile Heval.
  destruct (Z.eq_dec error 0) as [->|Herr].
  - destruct (main_success_world argv file w output e3 Hfile Heval)
      as (cbs & Hcbs & Hmain).
    exists EXIT_SUCCESS, (success_world w file output e3 cbs). eexists.
    split; [exact Hmain|]. split; [reflexivity|]. split; [|done].
    intros _. repeat split; events Hcbs; reflexivity.
  - destruct (main_failure_world argv file w output error e3 Hfile Heval Herr)
      as (cbs & Hcbs & Hmain).
    exists EXIT_FAILURE, (failure_world w file output error e3 cbs). eexists.
    split; [exact Hmain|]. split; [reflexivity|]. split; [done|].
    intros _. split; events Hcbs; reflexivity.
Qed.



(** C10. With one file argument, when the evaluation returns with a
    non-zero error flag, the run has no call of [free]: between the entry
    and the return of the evaluation there are only the calls of the
    callbacks, after it the host reports, hands the output buffer back
    and destroys the machine handle, and the context record is still
    allocated when [main] returns.  In every run of [main] that contains
    a call of [free], the exit code is [EXIT_SUCCESS]. *)
Theorem ctx_not_freed_on_failure (argv : list string) (file : string)
    (w : World) (output : buf_t) (error : Z) (e3 : E) :
  argv !! 1%nat = Some file ->
  evaluation w file = Some (output, error, e3) ->
  error ≠ 0 ->
  (exists w' evs cbs,
     main 2 argv w = Some (EXIT_FAILURE, w')
     /\ trace w' = trace w ++ setup_events w ++ evs
     /\ callback_calls cbs = true
     /\ evs = [EvEvaluateFileEnter (the_vm w) file] ++ cbs ++
              [EvEvaluateFile (the_vm w) file output error;
               EvFprintfStderr (cstr e3 output);
               EvRealloc (the_vm w) output 0;
               EvDestroy (the_vm w)]
     /\ count is_free (setup_events w ++ evs) = 0%nat
     /\ heap w' !! the_ctx w = Some (Some {| vm := the_vm w |}))
  /\ (forall argc' argv' w0 code w0',
        main argc' argv' w0 = Some (code, w0') ->
        exists evs0, trace w0' = trace w0 ++ evs0
                     /\ (existsb is_free evs0 = true -> code = EXIT_SUCCESS)).
Proof.
  intros Hfile Heval Herr. split.
  - destruct (main_failure_world argv file w output error e3 Hfile Heval Herr)
      as (cbs & Hcbs & Hmain).
    exists (failure_world w file output error e3 cbs). eexists. exists cbs.
    split; [exact Hmain|].
    split; [reflexivity|].
    split; [exact Hcbs|].
    split; [unfold evaluation_events; cbn [app]; by rewrite <- ?app_assoc|].
    split; [events Hcbs; reflexivity|].
    cbn [failure_world heap]. apply lookup_insert_eq.
  - apply free_only_on_success.
Qed.

(** ** More on native_add *)

(** binary64 addition commutes, and a NaN operand gives NaN. *)
Lemma SFadd_comm (p m : Z) (x y : spec_float) : SFadd p m x y = SFadd p m y x.
Proof.
  destruct x as [sx|sx| |sx mx ex], y as [sy|sy| |sy my ey]; cbn;
    try reflexivity; try (destruct sx, sy; reflexivity).
  by rewrite Z.min_comm, Z.add_comm.
Qed.

Lemma float_add_comm (a b : double) : (a + b)%float = (b + a)%float.
Proof. apply Prim2SF_inj. rewrite !add_spec. apply SFadd_comm. Qed.

Lemma float_add_nan_l (b : double) : (nan + b)%float = nan.
Proof. apply Prim2SF_inj. rewrite add_spec. reflexivity. Qed.

Lemma float_add_nan_r (a : double) : (a + nan)%float = nan.
Proof. rewrite float_add_comm. apply float_add_nan_l. Qed.

(** X1. The callback checks neither its context nor the length of
    [argv]: an invocation with fewer than the two arguments it reads, or
    with a context that does not point to an allocated and initialised
    record, is undefined. *)
Theorem native_add_undefined (junk : frame) (nctx : addr)
    (argv : list val_t) (w : World) :
  (length argv < 2)%nat \/ (forall c, heap w !! nctx ≠ Some (Some c)) ->
  native_add junk nctx argv w = None.
Proof.
  intros Hbad.
  destruct (native_add junk nctx argv w) as [[res w']|] eqn:Hrun; [|reflexivity].
  destruct (native_add_inv junk nctx argv w res w' Hrun)
    as (c & va & vb & Hctx & _ & Hb).
  destruct Hbad as [Hlen|Hnone].
  - apply lookup_lt_Some in Hb. lia.
  - by destruct (Hnone c).
Qed.

(** X2. What an invocation returns, and the engine state it leaves, depend
    only on the numbers the first two arguments carry: not on the stale
    contents of the locals, on further arguments, or on which handles
    carry the numbers. *)
Theorem native_add_depends_on_numbers (junk junk' : frame) (nctx : addr)
    (argv argv' : list val_t) (w : World) (c : native_ctx_t)
    (va vb va' vb' : val_t) (a b : double) :
  heap w !! nctx = Some (Some c) ->
  argv !! 0%nat = Some va -> argv !! 1%nat = Some vb ->
  argv' !! 0%nat = Some va' -> argv' !! 1%nat = Some vb' ->
  carries (eng w) (vm c) va a -> carries (eng w) (vm c) va' a ->
  carries (eng w) (vm c) vb b -> carries (eng w) (vm c) vb' b ->
  exists r w1 w2,
    native_add junk nctx argv w = Some ((r, 1), w1)
    /\ native_add junk' nctx argv' w = Some ((r, 1), w2)
    /\ eng w1 = eng w2
    /\ jsonnet_json_make_number (vm c) (a + b)%float (eng w) = (r, eng w1).
Proof.
  intros Hctx H0 H1 H0' H1' Ha Ha' Hb Hb'.
  rewrite (native_add_run junk nctx argv w c va vb Hctx H0 H1).
  rewrite (native_add_run junk' nctx argv' w c va' vb' Hctx H0' H1').
  rewrite (Ha junk.1), (Hb junk.2), (Ha' junk'.1), (Hb' junk'.2).
  cbn [fst snd].
  destruct (jsonnet_json_make_number (vm c) (a + b)%float (eng w)) as [r e'].
  eexists _, _, _. by repeat split.
Qed.

(** X3. Swapping two numeric arguments gives the same returned handle and
    the same engine state. *)
Theorem native_add_commutes (junk : frame) (nctx : addr) (w : World)
    (c : native_ctx_t) (va vb : val_t) (a b : double) :
  heap w !! nctx = Some (Some c) ->
  carries (eng w) (vm c) va a ->
  carries (eng w) (vm c) vb b ->
  exists r w1 w2,
    native_add junk nctx [va; vb] w = Some ((r, 1), w1)
    /\ native_add junk nctx [vb; va] w = Some ((r, 1), w2)
    /\ eng w1 = eng w2.
Proof.
  intros Hctx Ha Hb.
  rewrite (native_add_run junk nctx [va; vb] w c va vb Hctx eq_refl eq_refl).
  rewrite (native_add_run junk nctx [vb; va] w c vb va Hctx eq_refl eq_refl).
  rewrite (Ha junk.1), (Hb junk.2), (Ha junk.2), (Hb junk.1).
  cbn [fst snd]. rewrite (float_add_comm b a).
  destruct (jsonnet_json_make_number (vm c) (a + b)%float (eng w)) as [r e'].
  eexists _, _, _. by repeat split.
Qed.

(** X4. When one argument carries NaN, whatever the accessor does with the
    other, the callback makes NaN and still sets the success flag. *)
Theorem native_add_nan (junk : frame) (nctx : addr) (w : World)
    (c : native_ctx_t) (va vb : val_t) :
  heap w !! nctx = Some (Some c) ->
  carries (eng w) (vm c) va nan \/ carries (eng w) (vm c) vb nan ->
  exists r w',
    native_add junk nctx [va; vb] w = Some ((r, 1), w')
    /\ jsonnet_json_make_number (vm c) nan (eng w) = (r, eng w').
Proof.
  intros Hctx Hnan.
  rewrite (native_add_run junk nctx [va; vb] w c va vb Hctx eq_refl eq_refl).
  assert (Hsum :
    ((jsonnet_json_extract_number (vm c) va junk.1 (eng w)).2
     + (jsonnet_json_extract_number (vm c) vb junk.2 (eng w)).2)%float = nan).
  { destruct Hnan as [Ha|Hb].
    - rewrite (Ha junk.1). apply float_add_nan_l.
    - rewrite (Hb junk.2). apply float_add_nan_r. }
  cbn zeta. rewrite Hsum.
  destruct (jsonnet_json_make_number (vm c) nan (eng w)) as [r e'].
  eexists _, _. by split.
Qed.

(** X5. Two invocations in a row, the second on the result of the first: with
    an engine whose made numbers carry their number and keep what other
    handles carry, nativeAdd(nativeAdd(a, b), c) carries (a + b) + c. *)
Theorem native_add_nested (junk junk' : frame) (nctx : addr) (w : World)
    (c : native_ctx_t) (va vb vc : val_t) (x y z : double) :
  make_number_carries ->
  make_number_preserves ->
  heap w !! nctx = Some (Some c) ->
  carries (eng w) (vm c) va x ->
  carries (eng w) (vm c) vb y ->
  carries (eng w) (vm c) vc z ->
  exists r1 w1 r2 w2,
    native_add junk nctx [va; vb] w = Some ((r1, 1), w1)
    /\ native_add junk' nctx [r1; vc] w1 = Some ((r2, 1), w2)
    /\ carries (eng w2) (vm c) r2 ((x + y) + z)%float.
Proof.
  intros Hmk Hkeep Hctx Ha Hb Hc.
  rewrite (native_add_run junk nctx [va; vb] w c va vb Hctx eq_refl eq_refl).
  rewrite (Ha junk.1), (Hb junk.2). cbn [fst snd].
  pose proof (Hmk (vm c) (x + y)%float (eng w)) as Hr1.
  pose proof (Hkeep (vm c) (x + y)%float (eng w) (vm c) vc z Hc) as Hc1.
  destruct (jsonnet_json_make_number (vm c) (x + y)%float (eng w)) as [r1 e1].
  cbn [fst snd] in Hr1, Hc1.
  eexists r1, _, _, _. split; [reflexivity|].
  rewrite (native_add_run junk' nctx [r1; vc] _ c r1 vc);
    [|exact Hctx|reflexivity|reflexivity].
  cbn [fst snd eng heap out err trace]. rewrite (Hr1 junk'.1), (Hc1 junk'.2). cbn [fst snd].
  split; [reflexivity|].
  exact (Hmk (vm c) ((x + y) + z)%float e1).
Qed.

(** ** More on main *)

Lemma native_add_dangling (junk : frame) (nctx : addr) (argv : list val_t)
    (w : World) :
  heap w !! nctx = None -> native_add junk nctx argv w = None.
Proof.
  intros Hctx. unfold native_add, mbind, M_bind, load_vm. by rewrite Hctx.
Qed.

Lemma main_completes (argc : Z) (argv : list string) (w : World) :
  completes argc argv w -> exists code w', main argc argv w = Some (code, w').
Proof.
  intros Hc. destruct (Z.eq_dec argc 2) as [->|Hargc].
  - destruct Hc as [?|(file & output & error & e3 & Hfile & Heval)]; [done|].
    destruct (Z.eq_dec error 0) as [->|Herr].
    + destruct (main_success_world argv file w output e3 Hfile Heval)
        as (cbs & _ & Hmain).
      by eexists _, _.
    + destruct (main_failure_world argv file w output error e3 Hfile Heval Herr)
        as (cbs & _ & Hmain).
      by eexists _, _.
  - eexists _, _. exact (main_usage argc argv w Hargc).
Qed.

(** X6. In any state of the host whose memory is as [main] left it when
    it entered the evaluation (callbacks leave it so, [run_course_frame]),
    a call of the engine through the registered pointer with the
    registered context and at least two arguments is defined, sets the
    success flag, and works on the run's own machine handle: both
    extractions and the construction of the sum are made on it. *)
Theorem callback_during_evaluation (w w1 : World) (junk : frame)
    (va vb : val_t) (rest : list val_t) :
  heap w1 = heap (before_eval w) ->
  exists r w1',
    call_native fn_native_add junk (the_ctx w) (va :: vb :: rest) w1
    = Some ((r, 1), w1')
    /\ jsonnet_json_make_number (the_vm w)
         ((jsonnet_json_extract_number (the_vm w) va (fst junk) (eng w1)).2
          + (jsonnet_json_extract_number (the_vm w) vb (snd junk) (eng w1)).2)%float
         (eng w1)
       = (r, eng w1').
Proof.
  intros Hheap. cbn [call_native].
  rewrite (native_add_run junk (the_ctx w) (va :: vb :: rest) w1
             {| vm := the_vm w |} va vb);
    [|rewrite Hheap; apply lookup_insert_eq|reflexivity|reflexivity].
  cbn [vm fst snd].
  destruct (jsonnet_json_make_number _ _ (eng w1)) as [r e'].
  eexists _, _. by split.
Qed.

(** X7. When [main] has returned after a successful evaluation, the
    context record it registered is freed: its address is not allocated,
    and any further call of the callback with it is undefined. *)
Theorem ctx_after_main (argv : list string) (file : string) (w : World)
    (output : buf_t) (e3 : E) :
  argv !! 1%nat = Some file ->
  evaluation w file = Some (output, 0, e3) ->
  exists w',
    main 2 argv w = Some (EXIT_SUCCESS, w')
    /\ heap w' !! the_ctx w = None
    /\ forall junk args e,
         call_native fn_native_add junk (the_ctx w) args (set_eng e w') = None.
Proof.
  intros Hfile Heval.
  destruct (main_success_world argv file w output e3 Hfile Heval)
    as (cbs & _ & Hmain).
  exists (success_world w file output e3 cbs).
  split; [exact Hmain|]. split; [exact (the_ctx_fresh w)|].
  intros junk args e. cbn [call_native].
  apply native_add_dangling. exact (the_ctx_fresh w).
Qed.

(** X9. The exit code is [EXIT_SUCCESS] or [EXIT_FAILURE], and it is
    [EXIT_SUCCESS] exactly when [argc] is 2 and the evaluation of
    [argv[1]] returned with the error flag 0. *)
Theorem main_exit_code (argc : Z) (argv : list string) (w : World) :
  completes argc argv w ->
  exists code w',
    main argc argv w = Some (code, w')
    /\ (code = EXIT_SUCCESS \/ code = EXIT_FAILURE)
    /\ (code = EXIT_SUCCESS
        <-> argc = 2
            /\ exists file output e3,
                 argv !! 1%nat = Some file
                 /\ evaluation w file = Some (output, 0, e3)).
Proof.
  intros Hc. destruct (main_completes argc argv w Hc) as (code & w' & Hrun).
  exists code, w'. split; [exact Hrun|].
  destruct (main_cases argc argv w code w' Hrun)
    as [(Hargc & -> & _)|(-> & file & output & error & e3 & cbs & Hfile & Heval & _ &
                          [(-> & -> & _)|(Herr & -> & _)])].
  - split; [by right|]. split; [discriminate|]. by intros [? _].
  - split; [by left|]. split; [|done]. intros _. split; [done|].
    by exists file, output, e3.
  - split; [by right|]. split; [discriminate|].
    intros (_ & file' & output' & e3' & Hfile' & Heval').
    rewrite Hfile in Hfile'. injection Hfile' as <-.
    rewrite Heval in Heval'. by injection Heval' as _ ? _.
Qed.

(** X10. The only cell of the host's memory a run of [main] can change is
    the one it allocates itself, which was not allocated before. *)
Theorem main_heap_frame (argc : Z) (argv : list string) (w : World) :
  completes argc argv w ->
  exists code w',
    main argc argv w = Some (code, w')
    /\ heap w !! the_ctx w = None
    /\ (forall p, p ≠ the_ctx w -> heap w' !! p = heap w !! p).
Proof.
  intros Hc. destruct (main_completes argc argv w Hc) as (code & w' & Hrun).
  exists code, w'. split; [exact Hrun|]. split; [apply the_ctx_fresh|].
  intros p Hp.
  destruct (main_cases argc argv w code w' Hrun)
    as [(_ & _ & ->)|(_ & file & output & error & e3 & cbs & _ & _ & _ &
                      [(_ & _ & ->)|(_ & _ & ->)])];
    cbn [usage_world success_world failure_world heap]; [done..|].
  by rewrite lookup_insert_ne.
Qed.

(** X11. Of [argv], [main] reads the entry at index 1 and nothing else:
    the program name and any further entries have no influence on the
    run. *)
Theorem main_reads_argv1 (argc : Z) (argv argv' : list string) (w : World) :
  argv !! 1%nat = argv' !! 1%nat ->
  main argc argv w = main argc argv' w.
Proof.
  intros Heq. unfold main.
  destruct (negb (Z.eqb argc 2)); [reflexivity|].
  rewrite !setup_spec. unfold mbind, M_bind, index. by rewrite Heq.
Qed.

(** X12. In every run of [main], the calls of the callbacks included: as
    many machine handles are destroyed as are made; once the handle is
    destroyed the engine is not called again; once the output buffer is
    handed back nothing is printed and nothing is evaluated. *)
Theorem main_no_use_after_release (argc : Z) (argv : list string) (w : World) :
  completes argc argv w ->
  exists code w' evs,
    main argc argv w = Some (code, w')
    /\ trace w' = trace w ++ evs
    /\ count is_make evs = count is_destroy evs
    /\ occurs_before is_destroy is_engine_call evs = false
    /\ occurs_before is_release is_print evs = false
    /\ occurs_before is_release is_evaluate evs = false.
Proof.
  intros Hc. destruct (main_completes argc argv w Hc) as (code & w' & Hrun).
  exists code, w'.
  destruct (main_cases argc argv w code w' Hrun)
    as [(_ & _ & ->)|(_ & file & output & error & e3 & cbs & _ & _ & Hcbs &
                      [(_ & _ & ->)|(_ & _ & ->)])];
    eexists; (split; [exact Hrun|]); (split; [reflexivity|]);
    repeat split; events Hcbs; reflexivity.
Qed.

End HostFacts.
(** * The host on the test double *)

Section OnTestDouble.
Import TestDouble.

(** The double keeps the contract for made numbers. *)
Lemma testdouble_make_number_carries : make_number_carries (H := engine).
Proof.
  intros v d st cur. cbn.
  unfold extract_number, push_values. cbn [values].
  by rewrite list_lookup_middle.
Qed.

Lemma testdouble_make_number_preserves : make_number_preserves (H := engine).
Proof.
  intros v d st v' x d' Hx cur. specialize (Hx cur). revert Hx. cbn.
  unfold extract_number, push_values. cbn [values].
  destruct (_ !! _) as [j|] eqn:Hj; [|by intros [=]].
  by rewrite (lookup_app_l_Some _ [JNum d] _ _ Hj).
Qed.

(** nativeAdd(2, 3) is 5. *)
Lemma native_add_returns_sum_witness :
  exists r w',
    native_add junk ctx0 [val0; val1] (calling [JNum 2; JNum 3])
      = Some ((r, 1), w')
    /\ jsonnet_json_make_number vm0 (2 + 3)%float
         (eng (calling [JNum 2; JNum 3])) = (r, eng w')
    /\ carries (eng w') vm0 r 5%float.
Proof.
  apply (native_add_returns_sum (H := engine) junk ctx0
           (calling [JNum 2; JNum 3]) {| vm := vm0 |} val0 val1 2%float 3%float).
  - exact testdouble_make_number_carries.
  - vm_compute. reflexivity.
  - intros cur. reflexivity.
  - intros cur. reflexivity.
Defined.

(** nativeAdd("x", 3): the first extraction reports 0 and leaves the
    local as it was, 7 here, and the callback answers 7 + 3 with the
    success flag set. *)
Lemma native_add_ignores_status_witness :
  jsonnet_json_extract_number vm0 val0 (fst junk)
    (eng (calling [JStr "x"; JNum 3])) = (0, 7%float)
  /\ exists r w',
       native_add junk ctx0 [val0; val1] (calling [JStr "x"; JNum 3])
         = Some ((r, 1), w')
       /\ jsonnet_json_make_number vm0 (7 + 3)%float
            (eng (calling [JStr "x"; JNum 3])) = (r, eng w').
Proof.
  split; [reflexivity|].
  apply (native_add_ignores_status (H := engine) junk ctx0 [val0; val1]
           (calling [JStr "x"; JNum 3]) {| vm := vm0 |} val0 val1
           0 1 7%float 3%float).
  - vm_compute. reflexivity.
  - reflexivity.
  - reflexivity.
  - reflexivity.
  - reflexivity.
Defined.

Lemma native_add_frame_witness :
  exists r w' x sa sb,
    native_add junk ctx0 [val0; val1] (calling [JNum 2; JNum 3])
      = Some ((r, 1), w')
    /\ heap w' = heap (calling [JNum 2; JNum 3])
    /\ out w' = out (calling [JNum 2; JNum 3])
    /\ err w' = err (calling [JNum 2; JNum 3])
    /\ jsonnet_json_make_number vm0 x (eng (calling [JNum 2; JNum 3]))
       = (r, eng w')
    /\ trace w' = trace (calling [JNum 2; JNum 3]) ++
         [EvExtractNumber vm0 val0 sa; EvExtractNumber vm0 val1 sb;
          EvMakeNumber vm0 x r]
    /\ count is_make_number
         [EvExtractNumber vm0 val0 sa; EvExtractNumber vm0 val1 sb;
          EvMakeNumber vm0 x r] = 1%nat
    /\ (make_number_preserves ->
        forall v' y d,
          carries (eng (calling [JNum 2; JNum 3])) v' y d ->
          carries (eng w') v' y d).
Proof.
  apply (native_add_frame (H := engine) junk ctx0 [val0; val1]
           (calling [JNum 2; JNum 3]) {| vm := vm0 |} val0 val1).
  - vm_compute. reflexivity.
  - reflexivity.
  - reflexivity.
Defined.

(** add.jsonnet: exit code 0 and "5" on standard output. *)
Lemma main_success_witness :
  add_args !! 1%nat = Some "add.jsonnet"
  /\ evaluation world0 "add.jsonnet" = Some (buf0, 0, after_add)
  /\ exists w' cbs,
       run add_args = Some (0, w')
       /\ out w' = "5" +:+ newline
       /\ err w' = ""
       /\ callback_calls cbs = true
       /\ trace w' =
            [EvMake vm0; EvMalloc ctx0;
             EvNativeCallback vm0 "nativeAdd" fn_native_add ctx0
               [Some "a"; Some "b"; None];
             EvEvaluateFileEnter vm0 "add.jsonnet"] ++ cbs ++
            [EvEvaluateFile vm0 "add.jsonnet" buf0 0;
             EvPrintf ("5" +:+ newline);
             EvRealloc vm0 buf0 0;
             EvFree ctx0;
             EvDestroy vm0]
       /\ heap w' = ∅.
Proof.
  assert (Hfile : add_args !! 1%nat = Some "add.jsonnet") by reflexivity.
  assert (Heval : evaluation world0 "add.jsonnet" = Some (buf0, 0, after_add))
    by (vm_compute; reflexivity).
  split; [exact Hfile|]. split; [exact Heval|].
  destruct (main_success (H := engine) add_args "add.jsonnet" world0 buf0
              after_add Hfile Heval)
    as (w' & cbs & Hrun & Hout & Herr & Hcbs & Htrace & _ & Hheap).
  exists w', cbs. split; [exact Hrun|].
  rewrite Hout, Herr, Htrace, Hheap. by repeat split.
Defined.

(** The calls of that run, one by one: those of the callback stand
    between the entry and the return of the evaluation. *)
Example add_run_calls :
  exists w',
    run add_args = Some (0, w')
    /\ trace w' =
         [EvMake vm0; EvMalloc ctx0;
          EvNativeCallback vm0 "nativeAdd" fn_native_add ctx0
            [Some "a"; Some "b"; None];
          EvEvaluateFileEnter vm0 "add.jsonnet";
          EvExtractNumber vm0 val0 1;
          EvExtractNumber vm0 val1 1;
          EvMakeNumber vm0 5 val2;
          EvEvaluateFile vm0 "add.jsonnet" buf0 0;
          EvPrintf ("5" +:+ newline);
          EvRealloc vm0 buf0 0;
          EvFree ctx0;
          EvDestroy vm0].
Proof. eexists. split; vm_compute; reflexivity. Qed.

(** nope.jsonnet: exit code 1 and the engine's words on standard
    error. *)
Lemma main_failure_witness :
  missing_args !! 1%nat = Some "nope.jsonnet"
  /\ evaluation world0 "nope.jsonnet" = Some (buf0, 1, after_missing)
  /\ exists w' cbs,
       run missing_args = Some (1, w')
       /\ err w' = "cannot read nope.jsonnet" +:+ newline
       /\ out w' = ""
       /\ callback_calls cbs = true
       /\ trace w' =
            [EvMake vm0; EvMalloc ctx0;
             EvNativeCallback vm0 "nativeAdd" fn_native_add ctx0
               [Some "a"; Some "b"; None];
             EvEvaluateFileEnter vm0 "nope.jsonnet"] ++ cbs ++
            [EvEvaluateFile vm0 "nope.jsonnet" buf0 1;
             EvFprintfStderr ("cannot read nope.jsonnet" +:+ newline);
             EvRealloc vm0 buf0 0;
             EvDestroy vm0].
Proof.
  assert (Hfile : missing_args !! 1%nat = Some "nope.jsonnet") by reflexivity.
  assert (Heval : evaluation world0 "nope.jsonnet" = Some (buf0, 1, after_missing))
    by (vm_compute; reflexivity).
  split; [exact Hfile|]. split; [exact Heval|].
  destruct (main_failure (H := engine) missing_args "nope.jsonnet" world0 buf0
              1 after_missing Hfile Heval ltac:(discriminate))
    as (w' & cbs & Hrun & _ & Herr & Hout & Hcbs & Htrace & _).
  exists w', cbs. split; [exact Hrun|].
  rewrite Hout, Herr, Htrace. by repeat split.
Defined.

(** No argument, and two arguments. *)
Lemma main_wrong_argc_witness :
  (exists w',
     run ["libjsonnet_test_file"] = Some (1, w')
     /\ err w' = usage /\ trace w' = [EvFprintfStderr usage]
     /\ eng w' = init)
  /\ (exists w',
        run ["libjsonnet_test_file"; "add.jsonnet"; "mixed.jsonnet"] = Some (1, w')
        /\ err w' = usage /\ trace w' = [EvFprintfStderr usage]
        /\ eng w' = init).
Proof.
  split.
  - destruct (main_wrong_argc (H := engine) 1 ["libjsonnet_test_file"] world0
                ltac:(discriminate))
      as (w' & Hrun & _ & Herr & _ & Htrace & _ & Heng & _).
    exists w'. split; [exact Hrun|]. rewrite Herr, Htrace, Heng. by repeat split.
  - destruct (main_wrong_argc (H := engine) 3
                ["libjsonnet_test_file"; "add.jsonnet"; "mixed.jsonnet"] world0
                ltac:(discriminate))
      as (w' & Hrun & _ & Herr & _ & Htrace & _ & Heng & _).
    exists w'. split; [exact Hrun|]. rewrite Herr, Htrace, Heng. by repeat split.
Defined.

(** C5, with destroy before [free], does not hold on the run of
    add.jsonnet: the run exits with success, its [free] comes before its
    destroy, and no destroy comes before a [free]. *)
Lemma ctx_freed_after_destroy_counterexample :
  exists w',
    run add_args = Some (EXIT_SUCCESS, w')
    /\ occurs_before is_free is_destroy (trace w') = true
    /\ occurs_before is_destroy is_free (trace w') = false.
Proof.
  eexists. split; [vm_compute; reflexivity|].
  split; vm_compute; reflexivity.
Qed.

Lemma ctx_freed_before_destroy_witness :
  (exists code w' evs,
     run add_args = Some (code, w')
     /\ trace w' = trace world0 ++ evs
     /\ count is_free evs = 1%nat
     /\ occurs_before is_free is_destroy evs = true
     /\ occurs_before is_destroy is_free evs = false
     /\ occurs_before is_free is_evaluate evs = false)
  /\ (exists code w' evs,
        run missing_args = Some (code, w')
        /\ trace w' = trace world0 ++ evs
        /\ count is_free evs = 0%nat
        /\ occurs_before is_free is_destroy evs = false).
Proof.
  split.
  - destruct (ctx_freed_before_destroy (H := engine) add_args "add.jsonnet"
                world0 buf0 0 after_add eq_refl ltac:(vm_compute; reflexivity))
      as (code & w' & evs & Hrun & Htrace & Hok & _).
    exists code, w', evs. split; [exact Hrun|]. split; [exact Htrace|].
    exact (Hok eq_refl).
  - destruct (ctx_freed_before_destroy (H := engine) missing_args "nope.jsonnet"
                world0 buf0 1 after_missing eq_refl ltac:(vm_compute; reflexivity))
      as (code & w' & evs & Hrun & Htrace & _ & Hko).
    exists code, w', evs. split; [exact Hrun|]. split; [exact Htrace|].
    apply Hko. discriminate.
Defined.


(** The allocator of the double after both runs: one release, and no
    buffer left. *)
Example allocator_counts :
  (exists w', run add_args = Some (0, w')
              /\ released (eng w') = 1%nat /\ buffers (eng w') = [None])
  /\ (exists w', run missing_args = Some (1, w')
                 /\ released (eng w') = 1%nat /\ buffers (eng w') = [None]).
Proof.
  split; eexists; (split; [vm_compute; reflexivity|]); by split.
Qed.


(** The calls of the run of mixed.jsonnet, one by one. *)
Example mixed_run_calls :
  exists w',
    run mixed_args = Some (0, w')
    /\ trace w' =
         [EvMake vm0; EvMalloc ctx0;
          EvNativeCallback vm0 "nativeAdd" fn_native_add ctx0
            [Some "a"; Some "b"; None];
          EvEvaluateFileEnter vm0 "mixed.jsonnet";
          EvExtractNumber vm0 val0 0;
          EvExtractNumber vm0 val1 1;
          EvMakeNumber vm0 10 val2;
          EvEvaluateFile vm0 "mixed.jsonnet" buf0 0;
          EvPrintf ("10" +:+ newline);
          EvRealloc vm0 buf0 0;
          EvFree ctx0;
          EvDestroy vm0].
Proof. eexists. split; vm_compute; reflexivity. Qed.

Lemma ctx_not_freed_on_failure_witness :
  (exists w' evs cbs,
     run missing_args = Some (EXIT_FAILURE, w')
     /\ trace w' = trace world0 ++ setup_events world0 ++ evs
     /\ callback_calls cbs = true
     /\ evs = [EvEvaluateFileEnter vm0 "nope.jsonnet"] ++ cbs ++
              [EvEvaluateFile vm0 "nope.jsonnet" buf0 1;
               EvFprintfStderr ("cannot read nope.jsonnet" +:+ newline);
               EvRealloc vm0 buf0 0;
               EvDestroy vm0]
     /\ count is_free (setup_events world0 ++ evs) = 0%nat
     /\ heap w' !! ctx0 = Some (Some {| vm := vm0 |}))
  /\ (forall argc' argv' (w0 : World) code w0',
        main argc' argv' w0 = Some (code, w0') ->
        exists evs0, trace w0' = trace w0 ++ evs0
                     /\ (existsb is_free evs0 = true -> code = EXIT_SUCCESS)).
Proof.
  apply (ctx_not_freed_on_failure (H := engine) missing_args "nope.jsonnet"
           world0 buf0 1 after_missing).
  - reflexivity.
  - vm_compute. reflexivity.
  - discriminate.
Defined.

(** ** Further runs *)

Lemma native_add_depends_on_numbers_witness :
  exists r w1 w2,
    native_add junk ctx0 [val0; val1] (calling [JNum 2; JNum 3; JNum 2; JNum 3])
      = Some ((r, 1), w1)
    /\ native_add (0, 0)%float ctx0 [val2; val3; val0]
         (calling [JNum 2; JNum 3; JNum 2; JNum 3])
       = Some ((r, 1), w2)
    /\ eng w1 = eng w2
    /\ jsonnet_json_make_number vm0 (2 + 3)%float
         (eng (calling [JNum 2; JNum 3; JNum 2; JNum 3])) = (r, eng w1).
Proof.
  apply (native_add_depends_on_numbers (H := engine) junk (0, 0)%float ctx0
           [val0; val1] [val2; val3; val0]
           (calling [JNum 2; JNum 3; JNum 2; JNum 3]) {| vm := vm0 |}
           val0 val1 val2 val3 2%float 3%float).
  - vm_compute. reflexivity.
  - reflexivity.
  - reflexivity.
  - reflexivity.
  - reflexivity.
  - intros cur. reflexivity.
  - intros cur. reflexivity.
  - intros cur. reflexivity.
  - intros cur. reflexivity.
Defined.

Lemma native_add_commutes_witness :
  exists r w1 w2,
    native_add junk ctx0 [val0; val1] (calling [JNum 2; JNum 3]) = Some ((r, 1), w1)
    /\ native_add junk ctx0 [val1; val0] (calling [JNum 2; JNum 3])
       = Some ((r, 1), w2)
    /\ eng w1 = eng w2.
Proof.
  apply (native_add_commutes (H := engine) junk ctx0 (calling [JNum 2; JNum 3])
           {| vm := vm0 |} val0 val1 2%float 3%float).
  - vm_compute. reflexivity.
  - intros cur. reflexivity.
  - intros cur. reflexivity.
Defined.

(** nativeAdd(NaN, "x") *)
Lemma native_add_nan_witness :
  exists r w',
    native_add junk ctx0 [val0; val1] (calling [JNum nan; JStr "x"])
      = Some ((r, 1), w')
    /\ jsonnet_json_make_number vm0 nan (eng (calling [JNum nan; JStr "x"]))
       = (r, eng w').
Proof.
  apply (native_add_nan (H := engine) junk ctx0 (calling [JNum nan; JStr "x"])
           {| vm := vm0 |} val0 val1).
  - vm_compute. reflexivity.
  - left. intros cur. reflexivity.
Defined.

(** nativeAdd(nativeAdd(2, 3), 4) is 9. *)
Lemma native_add_nested_witness :
  exists r1 w1 r2 w2,
    native_add junk ctx0 [val0; val1] (calling [JNum 2; JNum 3; JNum 4])
      = Some ((r1, 1), w1)
    /\ native_add junk ctx0 [r1; val2] w1 = Some ((r2, 1), w2)
    /\ carries (eng w2) vm0 r2 9%float.
Proof.
  apply (native_add_nested (H := engine) junk junk ctx0
           (calling [JNum 2; JNum 3; JNum 4]) {| vm := vm0 |} val0 val1 val2
           2%float 3%float 4%float).
  - exact testdouble_make_number_carries.
  - exact testdouble_make_number_preserves.
  - vm_compute. reflexivity.
  - intros cur. reflexivity.
  - intros cur. reflexivity.
  - intros cur. reflexivity.
Defined.

Lemma add_completes : completes 2 add_args world0.
Proof.
  right. exists "add.jsonnet", buf0, 0, after_add.
  split; [reflexivity|]. vm_compute. reflexivity.
Defined.

Lemma missing_completes : completes 2 missing_args world0.
Proof.
  right. exists "nope.jsonnet", buf0, 1, after_missing.
  split; [reflexivity|]. vm_compute. reflexivity.
Defined.

Lemma native_add_undefined_witness :
  native_add junk ctx0 [val0] (calling [JNum 2]) = None
  /\ native_add junk 7%positive [val0; val1] (calling [JNum 2; JNum 3]) = None.
Proof.
  split.
  - apply (native_add_undefined (H := engine) junk ctx0 [val0] (calling [JNum 2])).
    left. cbn. lia.
  - apply (native_add_undefined (H := engine) junk 7%positive [val0; val1]
             (calling [JNum 2; JNum 3])).
    right. intros c. vm_compute. discriminate.
Defined.

Lemma callback_during_evaluation_witness :
  exists r w1',
    call_native fn_native_add junk ctx0 [val0; val1] (calling [JNum 2; JNum 3])
    = Some ((r, 1), w1')
    /\ jsonnet_json_make_number vm0 (2 + 3)%float
         (eng (calling [JNum 2; JNum 3]))
       = (r, eng w1').
Proof.
  apply (callback_during_evaluation (H := engine) world0
           (calling [JNum 2; JNum 3]) junk val0 val1 []).
  reflexivity.
Defined.

Lemma ctx_after_main_witness :
  exists w',
    run add_args = Some (EXIT_SUCCESS, w')
    /\ heap w' !! ctx0 = None
    /\ forall junk' args e,
         call_native fn_native_add junk' ctx0 args (set_eng e w') = None.
Proof.
  apply (ctx_after_main (H := engine) add_args "add.jsonnet" world0 buf0
           after_add).
  - reflexivity.
  - vm_compute. reflexivity.
Defined.

Lemma main_exit_code_witness :
  exists code w',
    run add_args = Some (code, w')
    /\ (code = EXIT_SUCCESS \/ code = EXIT_FAILURE)
    /\ (code = EXIT_SUCCESS
        <-> 2 = 2
            /\ exists file output e3,
                 add_args !! 1%nat = Some file
                 /\ evaluation world0 file = Some (output, 0, e3)).
Proof.
  exact (main_exit_code (H := engine) 2 add_args world0 add_completes).
Defined.

Lemma main_heap_frame_witness :
  exists code w',
    run missing_args = Some (code, w')
    /\ heap world0 !! ctx0 = None
    /\ (forall p, p ≠ ctx0 -> heap w' !! p = heap world0 !! p).
Proof.
  exact (main_heap_frame (H := engine) 2 missing_args world0 missing_completes).
Defined.

(** The program name and a third entry make no difference. *)
Lemma main_reads_argv1_witness :
  main 2 add_args world0 = main 2 ["./a.out"; "add.jsonnet"; "mixed.jsonnet"] world0.
Proof.
  apply (main_reads_argv1 (H := engine) 2 add_args
           ["./a.out"; "add.jsonnet"; "mixed.jsonnet"] world0).
  reflexivity.
Defined.

Lemma main_no_use_after_release_witness :
  exists code w' evs,
    run add_args = Some (code, w')
    /\ trace w' = trace world0 ++ evs
    /\ count is_make evs = count is_destroy evs
    /\ occurs_before is_destroy is_engine_call evs = false
    /\ occurs_before is_release is_print evs = false
    /\ occurs_before is_release is_evaluate evs = false.
Proof.
  exact (main_no_use_after_release (H := engine) 2 add_args world0 add_completes).
Defined.

End OnTestDouble.
